(** * Ryzen Stabilizator: the command dispatcher of [main.go]

    A shallow embedding of [main.go]: the sanity gate, the six toggle
    actions, the status report, the configuration-file path and [main].

    The program talks to three feature packages ([c6], [boosting], [aslr]),
    reads the processor identity and the effective user id, reads one file
    and prints to standard output.  These are modelled as follows.

    - The machine the feature packages act on is an abstract state [HW];
      every package function is a state transformer on it.
    - A run is a computation in the monad [IO]: it threads [HW] and emits
      the list of events it performs, in program order.  An event is either
      one [fmt] print call with the text it writes, or one call into a
      feature package.
    - A Go [error] is [option string]: [None] is [nil], [Some e] is an error
      whose [Error()] text is [e] (what [%v] prints).
    - [toml.Decode] is a parser followed by the visit of the document's keys
      that fills [rsSettings]; the visit is written out, and so is the
      parser on plain [key = value] documents. *)

From Stdlib Require Import ZArith List String Ascii Bool Lia DecimalString.
From Stdlib Require DecimalPos DecimalZ.
From Stdlib Require Import Permutation.
Import ListNotations.
Local Open Scope Z_scope.
Local Open Scope string_scope.

(** ** Go values used by the program *)

Definition error := string.

(** The line feed, the escape [\n] of the Go string literals. *)
Definition nl : string := String "010"%char EmptyString.

(** [%d] applied to an [int]. *)
Definition fmt_d (n : Z) : string := NilZero.string_of_int (Z.to_int n).

Module cpuid.

(** [cpuid.Vendor]; the program only compares it with [cpuid.AMD]. *)
Inductive Vendor : Set := Other | Intel | AMD | VIA | Transmeta | NSC | KVM.

Definition eqb (a b : Vendor) : bool :=
  match a, b with
  | Other, Other | Intel, Intel | AMD, AMD | VIA, VIA
  | Transmeta, Transmeta | NSC, NSC | KVM, KVM => true
  | _, _ => false
  end.

End cpuid.

(** ** Constants of the program *)

Definition program := "Ryzen Stabilizator Tabajara".
Definition copyright := "Copyright (C) 2018 Sergio Correia <sergio@correia.cc>".
Definition amdZenFamily : Z := 0x17.
Definition version := "unspecified/git version".

(** ** Data *)

Record rsSettings : Set := {
  C6 : string;
  Boosting : string;
  ASLR : string
}.

(** The three features, named after their packages. *)
Inductive Feature : Set := c6 | boosting | aslr.

(** The three functions every feature package exports. *)
Inductive Op : Set := Enable | Disable | Enabled.

Inductive Event : Set :=
| Printed (text : string)
| Called (f : Feature) (o : Op).

(** The command line once [flag.Parse] has gone through it. *)
Record Flags : Set := {
  configFilePtr : string;
  enableC6Ptr : bool;
  disableC6Ptr : bool;
  enableBoostingPtr : bool;
  disableBoostingPtr : bool;
  enableASLRPtr : bool;
  disableASLRPtr : bool
}.

(** [flag.Parse] either fills the flag variables or, on a malformed command
    line or a help request, ends the process there (it reports on standard
    error, which is not part of the events of a run). *)
Inductive CommandLine : Set :=
| Parsed (fl : Flags)
| ParseExit.

(** A feature package: [Enable() error], [Disable() error] and
    [Enabled() (bool, error)], acting on the machine. *)
Record Package (HW : Type) : Type := {
  pkgEnable : HW -> option error * HW;
  pkgDisable : HW -> option error * HW;
  pkgEnabled : HW -> (bool * option error) * HW
}.
Arguments pkgEnable {HW} _ _.
Arguments pkgDisable {HW} _ _.
Arguments pkgEnabled {HW} _ _.

(** What the process finds on the host it runs on. *)
Record Host (HW : Type) : Type := {
  CPU_VendorID : cpuid.Vendor;
  CPU_Family : Z;
  Geteuid : Z;
  ReadFile : string -> string + error;
  package : Feature -> Package HW
}.
Arguments CPU_VendorID {HW} _.
Arguments CPU_Family {HW} _.
Arguments Geteuid {HW} _.
Arguments ReadFile {HW} _ _.
Arguments package {HW} _ _.

(** A value of a TOML document, as far as the program can tell values
    apart: a string, or anything else (integer, boolean, float, date, array,
    table). *)
Inductive Value : Set :=
| VString (s : string)
| VOther.

(** A parsed TOML document: its top-level keys with their values, in the
    order in which [toml.Decode] visits them. *)
Definition Document : Set := list (string * Value).

(** Library functions whose code is outside the program: the [%q] verb on a
    string; the Unicode branch of [strings.ToLower]; and of [toml.Decode]
    the parts that are not written out below: the parser on documents that
    are not plain, the field (if any) a key with a byte above 0x7F matches,
    and the text of the type-mismatch error for a key. *)
Record GoLib : Type := {
  fmt_q : string -> string;
  unicodeToLower : string -> string;
  toml_parse : string -> Document + error;
  unicodeKeyField : string -> option Feature;
  toml_badtype : string -> error
}.

(** ** The monad of runs *)

Definition IO (HW A : Type) : Type := HW -> A * HW * list Event.

Definition ret {HW A} (a : A) : IO HW A := fun hw => (a, hw, []).

Definition bind {HW A B} (m : IO HW A) (k : A -> IO HW B) : IO HW B :=
  fun hw =>
    let '(a, hw1, t1) := m hw in
    let '(b, hw2, t2) := k a hw1 in
    (b, hw2, (t1 ++ t2)%list).

Notation "x <- m ;; k" := (bind m (fun x => k))
  (at level 61, m at next level, right associativity).
Notation "m ;; k" := (bind m (fun _ => k))
  (at level 61, right associativity).

(** The value a run returns, the machine it leaves behind and the events it
    performed. *)
Definition value {HW A} (r : A * HW * list Event) : A := fst (fst r).
Definition machine {HW A} (r : A * HW * list Event) : HW := snd (fst r).
Definition events {HW A} (r : A * HW * list Event) : list Event := snd r.

(** One [fmt.Printf] / [fmt.Println] call writing [s]. *)
Definition Print {HW} (s : string) : IO HW unit :=
  fun hw => (tt, hw, [Printed s]).

(** ** [strings.ToLower] *)

Fixpoint mapBytes (f : ascii -> ascii) (s : string) : string :=
  match s with
  | EmptyString => EmptyString
  | String c s' => String (f c) (mapBytes f s')
  end.

Fixpoint isASCII (s : string) : bool :=
  match s with
  | EmptyString => true
  | String c s' => (N_of_ascii c <? 128)%N && isASCII s'
  end.

(** ['A' <= c && c <= 'Z'] then [c += 'a' - 'A']. *)
Definition lowerByte (c : ascii) : ascii :=
  let n := N_of_ascii c in
  if ((65 <=? n) && (n <=? 90))%N then ascii_of_N (n + 32) else c.

(** ** [toml.Decode] into [rsSettings]

    [handleConfigurationFile] calls [toml.Decode(string(buf), &settings)] on
    a zero [rsSettings] and drops the [MetaData] it returns.  The decoder
    parses the text into a table and then visits every top-level key: the
    key is matched with the struct field whose [toml] tag is the key, or,
    failing that, is the key up to letter case; a key that matches no field
    is skipped (it is only listed in the dropped [MetaData]); a key that
    matches a field must carry a string, which is stored in the field, and
    any other value is a type-mismatch error. *)

(** The [toml] tags of [rsSettings]. *)
Definition tag (f : Feature) : string :=
  match f with
  | c6 => "c6"
  | boosting => "boosting"
  | aslr => "aslr"
  end.

Definition setField (f : Feature) (v : string) (st : rsSettings) : rsSettings :=
  match f with
  | c6 => {| C6 := v; Boosting := Boosting st; ASLR := ASLR st |}
  | boosting => {| C6 := C6 st; Boosting := v; ASLR := ASLR st |}
  | aslr => {| C6 := C6 st; Boosting := Boosting st; ASLR := v |}
  end.

(** The field a key of ASCII bytes matches: the one whose tag is the key
    with its capitals lowered. *)
Definition asciiKeyField (key : string) : option Feature :=
  let k := mapBytes lowerByte key in
  if k =? tag c6 then Some c6
  else if k =? tag boosting then Some boosting
  else if k =? tag aslr then Some aslr
  else None.

Definition keyField (L : GoLib) (key : string) : option Feature :=
  if isASCII key then asciiKeyField key else unicodeKeyField L key.

(** The visit of the keys, from the settings decoded so far. *)
Fixpoint unifyStruct (L : GoLib) (doc : Document) (st : rsSettings)
  : rsSettings + error :=
  match doc with
  | [] => inl st
  | (key, v) :: doc' =>
      match keyField L key with
      | None => unifyStruct L doc' st
      | Some f =>
          match v with
          | VString s => unifyStruct L doc' (setField f s st)
          | VOther => inr (toml_badtype L key)
          end
      end
  end.

(** *** Plain documents

    A document is plain when each of its lines (separated by line feeds) is
    blank, a comment, or [key = value] with a bare key and a value that is a
    basic string without escapes, [true], [false] or a decimal integer,
    possibly followed by a comment; all bytes are printable ASCII or tabs;
    and no two keys are equal up to letter case.  The parser is written out
    for these documents; any other text is left to [toml_parse]. *)

Definition inRange (lo hi : N) (c : ascii) : bool :=
  ((lo <=? N_of_ascii c) && (N_of_ascii c <=? hi))%N.

Definition isDigit (c : ascii) : bool := inRange 48 57 c.

Definition isBareKeyChar (c : ascii) : bool :=
  inRange 65 90 c || inRange 97 122 c || isDigit c
  || (c =? "_")%char || (c =? "-")%char.

Definition isBlank (c : ascii) : bool := (c =? " ")%char || (c =? "009")%char.

Definition isPrintable (c : ascii) : bool := inRange 32 126 c.

Definition isStringChar (c : ascii) : bool :=
  isPrintable c && negb (c =? "034")%char && negb (c =? "092")%char.

Fixpoint allChars (p : ascii -> bool) (s : string) : bool :=
  match s with
  | EmptyString => true
  | String c s' => p c && allChars p s'
  end.

(** The longest prefix of [s] whose bytes satisfy [p], and what follows. *)
Fixpoint span (p : ascii -> bool) (s : string) : string * string :=
  match s with
  | EmptyString => (EmptyString, EmptyString)
  | String c s' =>
      if p c then let (a, b) := span p s' in (String c a, b)
      else (EmptyString, s)
  end.

Definition skipBlanks (s : string) : string := snd (span isBlank s).

(** Nothing but blanks up to the end of the line, or up to a comment. *)
Definition endsLine (s : string) : bool :=
  match skipBlanks s with
  | EmptyString => true
  | String c s' =>
      (c =? "#")%char && allChars (fun c => isPrintable c || isBlank c) s'
  end.

(** An optional sign and at most 18 digits, with no leading zero. *)
Definition isPlainInteger (tok : string) : bool :=
  let digits :=
    match tok with
    | String c t => if (c =? "+")%char || (c =? "-")%char then t else tok
    | EmptyString => tok
    end in
  match digits with
  | EmptyString => false
  | String c t =>
      allChars isDigit digits
      && (negb (c =? "0")%char || (t =? ""))
      && (String.length digits <=? 18)%nat
  end.

Definition plainValue (s : string) : option (Value * string) :=
  match s with
  | EmptyString => None
  | String c s' =>
      if (c =? "034")%char then
        let (body, rest) := span isStringChar s' in
        match rest with
        | String c' rest' =>
            if (c' =? "034")%char then Some (VString body, rest') else None
        | EmptyString => None
        end
      else
        let (tok, rest) := span (fun c => isBareKeyChar c || (c =? "+")%char) s in
        if (tok =? "true") || (tok =? "false") || isPlainInteger tok
        then Some (VOther, rest)
        else None
  end.

(** One line: [Some None] for a blank or comment line, [Some (Some kv)] for
    a key with its value, [None] when the line is not plain. *)
Definition plainLine (line : string) : option (option (string * Value)) :=
  if endsLine line then Some None
  else
    let (key, afterKey) := span isBareKeyChar (skipBlanks line) in
    match key, skipBlanks afterKey with
    | String _ _, String c afterSep =>
        if (c =? "=")%char then
          match plainValue (skipBlanks afterSep) with
          | Some (v, rest) =>
              if endsLine rest then Some (Some (key, v)) else None
          | None => None
          end
        else None
    | _, _ => None
    end.

Fixpoint lines (s : string) : list string :=
  match s with
  | EmptyString => [EmptyString]
  | String c s' =>
      if (c =? "010")%char then EmptyString :: lines s'
      else match lines s' with
           | l :: ls => String c l :: ls
           | [] => [String c EmptyString]
           end
  end.

Fixpoint plainEntries (ls : list string) : option Document :=
  match ls with
  | [] => Some []
  | l :: ls' =>
      match plainLine l, plainEntries ls' with
      | Some None, Some doc => Some doc
      | Some (Some kv), Some doc => Some (kv :: doc)
      | _, _ => None
      end
  end.

Fixpoint distinct (l : list string) : bool :=
  match l with
  | [] => true
  | k :: l' => negb (existsb (String.eqb k) l') && distinct l'
  end.

Definition plainDocument (buf : string) : option Document :=
  match plainEntries (lines buf) with
  | Some doc =>
      if distinct (map (fun kv => mapBytes lowerByte (fst kv)) doc)
      then Some doc else None
  | None => None
  end.

(** The parser: written out on plain documents, the library's elsewhere. *)
Definition parse (L : GoLib) (buf : string) : Document + error :=
  match plainDocument buf with
  | Some doc => inl doc
  | None => toml_parse L buf
  end.

(** [toml.Decode(buf, &settings)] on [settings := rsSettings{}]. *)
Definition toml_Decode (L : GoLib) (buf : string) : rsSettings + error :=
  match parse L buf with
  | inr err => inr err
  | inl doc => unifyStruct L doc {| C6 := ""; Boosting := ""; ASLR := "" |}
  end.

Section Program.

Context {HW : Type} (L : GoLib) (H : Host HW).

(** A string of bytes below 0x80 is lowered byte by byte; any other string
    goes through the Unicode tables. *)
Definition ToLower (s : string) : string :=
  if isASCII s then mapBytes lowerByte s else unicodeToLower L s.

(** ** Calls into the feature packages *)

Definition call_Enable (f : Feature) : IO HW (option error) :=
  fun hw => let (err, hw') := pkgEnable (package H f) hw in
            (err, hw', [Called f Enable]).

Definition call_Disable (f : Feature) : IO HW (option error) :=
  fun hw => let (err, hw') := pkgDisable (package H f) hw in
            (err, hw', [Called f Disable]).

Definition call_Enabled (f : Feature) : IO HW (bool * option error) :=
  fun hw => let (r, hw') := pkgEnabled (package H f) hw in
            (r, hw', [Called f Enabled]).

(** ** [sanityCheck] *)

Definition sanityCheck : option error :=
  if negb (cpuid.eqb (CPU_VendorID H) cpuid.AMD) then
    Some "this is not an AMD processor"
  else if negb (CPU_Family H =? amdZenFamily)%Z then
    Some ("wrong family of AMD processors; expected 23 (17h), got "
            ++ fmt_d (CPU_Family H))
  else if negb (Geteuid H =? 0)%Z then
    Some "you need to be root to use this program"
  else None.

(** ** The six toggle actions *)

Definition disableC6 : IO HW unit :=
  Print "Disabling C6 C-state:   " ;;
  err <- call_Disable c6 ;;
  match err with
  | Some e => Print ("oops: " ++ e ++ nl)
  | None => Print ("SUCCESS" ++ nl)
  end.

Definition enableC6 : IO HW unit :=
  Print "Enabling C6 C-state:   " ;;
  err <- call_Enable c6 ;;
  match err with
  | Some e => Print ("oops: " ++ e ++ nl)
  | None => Print ("SUCCESS" ++ nl)
  end.

Definition disableBoosting : IO HW unit :=
  Print "Disabling processor boosting:   " ;;
  err <- call_Disable boosting ;;
  match err with
  | Some e => Print ("oops: " ++ e ++ nl)
  | None => Print ("SUCCESS" ++ nl)
  end.

Definition enableBoosting : IO HW unit :=
  Print "Enabling processor boosting:   " ;;
  err <- call_Enable boosting ;;
  match err with
  | Some e => Print ("oops: " ++ e ++ nl)
  | None => Print ("SUCCESS" ++ nl)
  end.

Definition disableASLR : IO HW unit :=
  Print "Disabling address space layout randomization (ASLR):   " ;;
  err <- call_Disable aslr ;;
  match err with
  | Some e => Print ("oops: " ++ e ++ nl)
  | None => Print ("SUCCESS" ++ nl)
  end.

Definition enableASLR : IO HW unit :=
  Print "Enabling address space layout randomization (ASLR):   " ;;
  err <- call_Enable aslr ;;
  match err with
  | Some e => Print ("oops: " ++ e ++ nl)
  | None => Print ("SUCCESS" ++ nl)
  end.

(** ** [showStatus] *)

Definition c6Status (r : bool * option error) : string :=
  match snd r with
  | None => if fst r then "C6 C-state is ENABLED." else "C6 C-state is DISABLED."
  | Some err => "Error while obtaining status of C6 C-state: " ++ err
  end.

Definition aslrStatus (r : bool * option error) : string :=
  match snd r with
  | None => if fst r then "ASLR is ENABLED." else "ASLR is DISABLED."
  | Some err => "Error while obtaining status of ASLR: " ++ err
  end.

Definition boostingStatus (r : bool * option error) : string :=
  match snd r with
  | None => if fst r then "Processor boosting is ENABLED."
            else "Processor boosting is DISABLED."
  | Some err => "Error while obtaining status of processor boosting: " ++ err
  end.

Definition showStatus : IO HW unit :=
  r <- call_Enabled c6 ;;
  Print (nl ++ c6Status r ++ nl) ;;
  r <- call_Enabled aslr ;;
  Print (aslrStatus r ++ nl) ;;
  r <- call_Enabled boosting ;;
  Print (boostingStatus r ++ nl).

(** ** [handleConfigurationFile] *)

Definition handleConfigurationFile (configFile : string) : IO HW unit :=
  match ReadFile H configFile with
  | inr err =>
      Print ("Error: unable to read contents of config file "
               ++ fmt_q L configFile ++ ": " ++ err ++ "." ++ nl)
  | inl buf =>
      match toml_Decode L buf with
      | inr err =>
          Print ("Error: problem parsing config file "
                   ++ fmt_q L configFile ++ ": " ++ err ++ "." ++ nl ++ nl)
      | inl settings =>
          Print ("Config file: " ++ fmt_q L configFile ++ nl) ;;
          (let v := ToLower (Boosting settings) in
           if v =? "enable" then enableBoosting
           else if v =? "disable" then disableBoosting
           else ret tt) ;;
          (let v := ToLower (C6 settings) in
           if v =? "enable" then enableC6
           else if v =? "disable" then disableC6
           else ret tt) ;;
          (let v := ToLower (ASLR settings) in
           if v =? "enable" then enableASLR
           else if v =? "disable" then disableASLR
           else ret tt) ;;
          showStatus
      end
  end.

(** ** [main] *)

Definition banner : string :=
  program ++ " " ++ version ++ nl ++ copyright ++ nl ++ nl.

Definition main (cmdline : CommandLine) : IO HW unit :=
  Print banner ;;
  match sanityCheck with
  | Some err => Print ("Error: " ++ err ++ "." ++ nl)
  | None =>
      match cmdline with
      | ParseExit => ret tt
      | Parsed fl =>
          if negb (configFilePtr fl =? "") then
            handleConfigurationFile (configFilePtr fl)
          else
            (if disableC6Ptr fl then disableC6
             else if enableC6Ptr fl then enableC6
             else ret tt) ;;
            (if disableBoostingPtr fl then disableBoosting
             else if enableBoostingPtr fl then enableBoosting
             else ret tt) ;;
            (if disableASLRPtr fl then disableASLR
             else if enableASLRPtr fl then enableASLR
             else ret tt) ;;
            showStatus
      end
  end.

End Program.

(** ** Observations on the events of a run *)

(** The calls into the feature packages, in program order. *)
Definition calls (t : list Event) : list (Feature * Op) :=
  flat_map (fun e => match e with
                     | Called f o => [(f, o)]
                     | Printed _ => []
                     end) t.

Definition isMutation (c : Feature * Op) : bool :=
  match snd c with
  | Enable | Disable => true
  | Enabled => false
  end.

(** The enable and disable calls, in program order. *)
Definition mutations (t : list Event) : list (Feature * Op) :=
  filter isMutation (calls t).

(** The texts of the print calls, in program order. *)
Definition printed (t : list Event) : list string :=
  flat_map (fun e => match e with
                     | Printed s => [s]
                     | Called _ _ => []
                     end) t.

(** What the run wrote on standard output. *)
Fixpoint stdout (t : list Event) : string :=
  match t with
  | [] => ""
  | Printed s :: t' => s ++ stdout t'
  | Called _ _ :: t' => stdout t'
  end.

(** Number of line feeds in a text. *)
Fixpoint newlines (s : string) : nat :=
  match s with
  | EmptyString => 0
  | String c s' => (if (c =? "010")%char then 1 else 0) + newlines s'
  end.

(** The text an action prints after the call, for each result of the call. *)
Definition outcome (err : option error) : string :=
  match err with
  | Some e => "oops: " ++ e ++ nl
  | None => "SUCCESS" ++ nl
  end.

Definition newlines_of (err : option error) : nat :=
  match err with
  | Some e => newlines e
  | None => 0
  end.

(** Reading a decimal back, the inverse of [fmt_d]. *)
Definition parse_d (s : string) : option Z :=
  option_map Z.of_int (NilZero.int_of_string s).

(** [sub] occurs in [s]. *)
Definition occurs_in (sub s : string) : Prop :=
  exists pre post, s = pre ++ sub ++ post.

(** An action that prints exactly one outcome line for one call of the
    package function [op] of feature [f]: the label, three blanks after the
    colon, then [SUCCESS] or [oops:] with the error, then a line feed. *)
Definition one_outcome_line {HW} (action : IO HW unit) (label : string)
    (f : Feature) (o : Op) (op : HW -> option error * HW) : Prop :=
  forall hw,
    calls (events (action hw)) = [(f, o)] /\
    machine (action hw) = snd (op hw) /\
    stdout (events (action hw)) =
      label ++ ":   " ++
      match fst (op hw) with
      | None => "SUCCESS"
      | Some e => "oops: " ++ e
      end ++ nl /\
    newlines (stdout (events (action hw))) = (1 + newlines_of (fst (op hw)))%nat.

(** Recognisers of the three status lines [showStatus] prints. *)
Definition is_c6_line (s : string) : bool :=
  (s =? nl ++ "C6 C-state is ENABLED." ++ nl)
  || (s =? nl ++ "C6 C-state is DISABLED." ++ nl)
  || prefix (nl ++ "Error while obtaining status of C6 C-state: ") s.

Definition is_aslr_line (s : string) : bool :=
  (s =? "ASLR is ENABLED." ++ nl)
  || (s =? "ASLR is DISABLED." ++ nl)
  || prefix "Error while obtaining status of ASLR: " s.

Definition is_boosting_line (s : string) : bool :=
  (s =? "Processor boosting is ENABLED." ++ nl)
  || (s =? "Processor boosting is DISABLED." ++ nl)
  || prefix "Error while obtaining status of processor boosting: " s.

Definition is_status_line (s : string) : bool :=
  is_c6_line s || is_aslr_line s || is_boosting_line s.

(** The last three texts printed are the C6, ASLR and boosting status
    lines, in this order. *)
Definition ends_with_status (t : list Event) : bool :=
  match rev (printed t) with
  | b :: a :: c :: _ => is_c6_line c && is_aslr_line a && is_boosting_line b
  | _ => false
  end.

(** The place of an event in a sequence of phases: a mutation of feature [f]
    belongs to phase [order f], a status query or a printed status line to
    phase 3; other prints belong to no phase. *)
Definition phase (order : Feature -> nat) (e : Event) : list nat :=
  match e with
  | Called f Enable | Called f Disable => [order f]
  | Called _ Enabled => [3%nat]
  | Printed s => if is_status_line s then [3%nat] else []
  end.

Definition phases (order : Feature -> nat) (t : list Event) : list nat :=
  flat_map (phase order) t.

Fixpoint nondecreasing (l : list nat) : bool :=
  match l with
  | a :: (b :: _) as l' => (a <=? b)%nat && nondecreasing l'
  | _ => true
  end.

(** Boost, then C6, then ASLR. *)
Definition boostFirst (f : Feature) : nat :=
  match f with boosting => 0 | c6 => 1 | aslr => 2 end.

(** C6, then Boost, then ASLR. *)
Definition c6First (f : Feature) : nat :=
  match f with c6 => 0 | boosting => 1 | aslr => 2 end.

Definition in_order (order : Feature -> nat) (t : list Event) : bool :=
  nondecreasing (phases order t).

(** The calls a pair of flags, or a lowered configuration value, selects. *)
Definition flagCalls (f : Feature) (disableFlag enableFlag : bool)
  : list (Feature * Op) :=
  if disableFlag then [(f, Disable)]
  else if enableFlag then [(f, Enable)]
  else [].

Definition valueCalls (f : Feature) (lowered : string) : list (Feature * Op) :=
  if lowered =? "enable" then [(f, Enable)]
  else if lowered =? "disable" then [(f, Disable)]
  else [].

Definition statusCalls : list (Feature * Op) :=
  [(c6, Enabled); (aslr, Enabled); (boosting, Enabled)].

Definition Feature_eqb (a b : Feature) : bool :=
  match a, b with
  | c6, c6 | boosting, boosting | aslr, aslr => true
  | _, _ => false
  end.

(** The enable and disable calls made for feature [f]. *)
Definition mutationsOf (f : Feature) (t : list Event) : list (Feature * Op) :=
  filter (fun c => Feature_eqb (fst c) f) (mutations t).

(** The field of the settings that belongs to a feature. *)
Definition field (f : Feature) (st : rsSettings) : string :=
  match f with
  | c6 => C6 st
  | boosting => Boosting st
  | aslr => ASLR st
  end.

(** The configuration file can be read and its contents decode. *)
Definition loads {HW} (L : GoLib) (H : Host HW) (configFile : string) : bool :=
  match ReadFile H configFile with
  | inl buf => match toml_Decode L buf with
               | inl _ => true
               | inr _ => false
               end
  | inr _ => false
  end.

(** [m] is one mutation of feature [f] by [o], with no status text printed. *)
Definition toggles {HW} (f : Feature) (o : Op) (m : IO HW unit) : Prop :=
  forall hw,
    calls (events (m hw)) = [(f, o)] /\
    (forall order, phases order (events (m hw)) = [order f]) /\
    exists label err,
      events (m hw) = [Printed label; Called f o; Printed (outcome err)].


(** ** A small machine, for examples *)

Record Knobs : Set := { c6_on : bool; boost_on : bool; aslr_on : bool }.

Definition get_knob (f : Feature) (k : Knobs) : bool :=
  match f with c6 => c6_on k | boosting => boost_on k | aslr => aslr_on k end.

Definition set_knob (f : Feature) (b : bool) (k : Knobs) : Knobs :=
  match f with
  | c6 => {| c6_on := b; boost_on := boost_on k; aslr_on := aslr_on k |}
  | boosting => {| c6_on := c6_on k; boost_on := b; aslr_on := aslr_on k |}
  | aslr => {| c6_on := c6_on k; boost_on := boost_on k; aslr_on := b |}
  end.

Definition workingPackage (f : Feature) : Package Knobs :=
  {| pkgEnable := fun k => (None, set_knob f true k);
     pkgDisable := fun k => (None, set_knob f false k);
     pkgEnabled := fun k => ((get_knob f k, None), k) |}.

Definition brokenPackage (f : Feature) : Package Knobs :=
  {| pkgEnable := fun k => (Some "permission denied", k);
     pkgDisable := fun k => (Some "permission denied", k);
     pkgEnabled := fun k => ((false, Some "permission denied"), k) |}.

Definition dq : string := String "034"%char EmptyString.

Definition sampleDoc : string :=
  "boosting = " ++ dq ++ "enable" ++ dq ++ nl ++
  "c6 = " ++ dq ++ "disable" ++ dq ++ nl.

Definition shoutingDoc : string :=
  "boosting = " ++ dq ++ "ENABLE" ++ dq ++ nl ++
  "c6 = " ++ dq ++ "Disable" ++ dq ++ nl ++
  "aslr = " ++ dq ++ "enabled" ++ dq ++ nl.

Definition sampleLib : GoLib :=
  {| fmt_q := fun s => dq ++ s ++ dq;
     unicodeToLower := fun s => s;
     toml_parse := fun _ => inr "expected key separator '=', but got end of input";
     unicodeKeyField := fun _ => None;
     toml_badtype := fun key => "type mismatch for " ++ key |}.


Definition sampleFiles (path : string) : string + error :=
  if path =? "/etc/ryzen.toml" then inl sampleDoc
  else if path =? "/etc/shouting.toml" then inl shoutingDoc
  else if path =? "/etc/broken.toml" then inl "c6"
  else inr ("open " ++ path ++ ": no such file or directory").

Definition zenRoot : Host Knobs :=
  {| CPU_VendorID := cpuid.AMD; CPU_Family := 0x17; Geteuid := 0;
     ReadFile := sampleFiles; package := workingPackage |}.


Definition zenRootBroken : Host Knobs :=
  {| CPU_VendorID := cpuid.AMD; CPU_Family := 0x17; Geteuid := 0;
     ReadFile := sampleFiles; package := brokenPackage |}.

Definition zenUser : Host Knobs :=
  {| CPU_VendorID := cpuid.AMD; CPU_Family := 0x17; Geteuid := 1000;
     ReadFile := sampleFiles; package := workingPackage |}.

Definition bulldozerRoot : Host Knobs :=
  {| CPU_VendorID := cpuid.AMD; CPU_Family := 0x15; Geteuid := 0;
     ReadFile := sampleFiles; package := workingPackage |}.

Definition intelRoot : Host Knobs :=
  {| CPU_VendorID := cpuid.Intel; CPU_Family := 6; Geteuid := 0;
     ReadFile := sampleFiles; package := workingPackage |}.

Definition allOn : Knobs := {| c6_on := true; boost_on := true; aslr_on := true |}.

Definition sampleFlags (configFile : string)
    (enC6 disC6 enBoost disBoost enASLR disASLR : bool) : Flags :=
  {| configFilePtr := configFile; enableC6Ptr := enC6; disableC6Ptr := disC6;
     enableBoostingPtr := enBoost; disableBoostingPtr := disBoost;
     enableASLRPtr := enASLR; disableASLRPtr := disASLR |}.

Definition noFlags : Flags :=
  {| configFilePtr := ""; enableC6Ptr := false; disableC6Ptr := false;
     enableBoostingPtr := false; disableBoostingPtr := false;
     enableASLRPtr := false; disableASLRPtr := false |}.

(** ** Further observations *)

(** The two flags of a feature. *)
Definition disableFlag (f : Feature) (fl : Flags) : bool :=
  match f with
  | c6 => disableC6Ptr fl
  | boosting => disableBoostingPtr fl
  | aslr => disableASLRPtr fl
  end.

Definition enableFlag (f : Feature) (fl : Flags) : bool :=
  match f with
  | c6 => enableC6Ptr fl
  | boosting => enableBoostingPtr fl
  | aslr => enableASLRPtr fl
  end.

(** The calls a run is going to make, worked out from the gate, the command
    line and the configuration file alone, before any package is called. *)
Definition plannedCalls {HW} (L : GoLib) (H : Host HW) (cmdline : CommandLine)
  : list (Feature * Op) :=
  match sanityCheck H with
  | Some _ => []
  | None =>
      match cmdline with
      | ParseExit => []
      | Parsed fl =>
          if negb (configFilePtr fl =? "") then
            match ReadFile H (configFilePtr fl) with
            | inr _ => []
            | inl buf =>
                match toml_Decode L buf with
                | inr _ => []
                | inl st =>
                    (valueCalls boosting (ToLower L (Boosting st)) ++
                     valueCalls c6 (ToLower L (C6 st)) ++
                     valueCalls aslr (ToLower L (ASLR st)) ++ statusCalls)%list
                end
            end
          else
            (flagCalls c6 (disableC6Ptr fl) (enableC6Ptr fl) ++
             flagCalls boosting (disableBoostingPtr fl) (enableBoostingPtr fl) ++
             flagCalls aslr (disableASLRPtr fl) (enableASLRPtr fl) ++
             statusCalls)%list
      end
  end.

(** The text ends with a line feed. *)
Definition ends_with_nl (s : string) : Prop := exists s', s = s' ++ nl.

(** * Properties *)

(** ** Strings *)

Lemma append_assoc (a b c : string) : (a ++ b) ++ c = a ++ b ++ c.
Proof.
  induction a as [|x a IH]; simpl; [reflexivity | now rewrite IH].
Qed.

Lemma append_nil_r (a : string) : a ++ "" = a.
Proof.
  induction a as [|x a IH]; simpl; [reflexivity | now rewrite IH].
Qed.

Lemma newlines_app (a b : string) :
  newlines (a ++ b) = (newlines a + newlines b)%nat.
Proof.
  induction a as [|x a IH]; simpl; [reflexivity | rewrite IH; lia].
Qed.

Lemma prefix_nil (s : string) : prefix "" s = true.
Proof. now destruct s. Qed.

Lemma prefix_app (p s : string) : prefix p (p ++ s) = true.
Proof.
  induction p as [|x p IH]; simpl.
  - apply prefix_nil.
  - destruct (ascii_dec x x) as [_|ne]; [exact IH | now elim ne].
Qed.

(** [%d] loses nothing: the number can be read back from its text. *)
Lemma parse_d_fmt_d (z : Z) : parse_d (fmt_d z) = Some z.
Proof.
  unfold parse_d, fmt_d.
  rewrite NilZero.isi.
  - simpl. now rewrite DecimalZ.of_to.
  - destruct z as [|p|p]; simpl; try discriminate.
    intros E. injection E. apply DecimalPos.Unsigned.to_uint_nonnil.
  - destruct z as [|p|p]; simpl; try discriminate.
    intros E. injection E. apply DecimalPos.Unsigned.to_uint_nonnil.
Qed.

Lemma fmt_d_inj (a b : Z) : fmt_d a = fmt_d b -> a = b.
Proof.
  intros E. apply (f_equal parse_d) in E.
  rewrite !parse_d_fmt_d in E. congruence.
Qed.

Lemma cpuid_eqb_eq (a b : cpuid.Vendor) : cpuid.eqb a b = true <-> a = b.
Proof.
  split; [destruct a, b; simpl; congruence | intros ->; now destruct b].
Qed.

(** ** The monad *)

Lemma events_bind {HW A B} (m : IO HW A) (k : A -> IO HW B) (hw : HW) :
  events (bind m k hw) =
  (events (m hw) ++ events (k (value (m hw)) (machine (m hw))))%list.
Proof.
  unfold bind, events, value, machine.
  destruct (m hw) as [[a hw1] t1]; simpl.
  now destruct (k a hw1) as [[b hw2] t2].
Qed.

Lemma machine_bind {HW A B} (m : IO HW A) (k : A -> IO HW B) (hw : HW) :
  machine (bind m k hw) = machine (k (value (m hw)) (machine (m hw))).
Proof.
  unfold bind, value, machine.
  destruct (m hw) as [[a hw1] t1]; simpl.
  now destruct (k a hw1) as [[b hw2] t2].
Qed.

Lemma calls_app (t u : list Event) : calls (t ++ u) = (calls t ++ calls u)%list.
Proof. apply flat_map_app. Qed.

Lemma printed_app (t u : list Event) :
  printed (t ++ u) = (printed t ++ printed u)%list.
Proof. apply flat_map_app. Qed.

Lemma phases_app order (t u : list Event) :
  phases order (t ++ u) = (phases order t ++ phases order u)%list.
Proof. apply flat_map_app. Qed.

(** ** The gate *)

(** The wrong-family message is given to hosts of that family only. *)
Lemma wrong_family_names_family {HW} (H' : Host HW) (family : Z) :
  sanityCheck H' =
    Some ("wrong family of AMD processors; expected 23 (17h), got "
            ++ fmt_d family) ->
  CPU_Family H' = family.
Proof.
  unfold sanityCheck.
  destruct (cpuid.eqb (CPU_VendorID H') cpuid.AMD); simpl; [|discriminate].
  destruct (CPU_Family H' =? amdZenFamily)%Z; simpl.
  - destruct (Geteuid H' =? 0)%Z; simpl; discriminate.
  - intros E. injection E as E.
    now apply fmt_d_inj.
Qed.

(** C1. [sanityCheck] fails with the wrong-vendor error whenever the vendor
    is not AMD; with the wrong-family error whenever the vendor is AMD and
    the family is not 0x17, and that message carries the expected family
    (23, 17h) and ends with the actual family in decimal (no host of another
    family gets the same message); with the
    insufficient-privilege error whenever vendor and family are right and
    the effective user id is not 0; and it succeeds exactly when the vendor
    is AMD, the family is 0x17 and the effective user id is 0. *)
Theorem sanityCheck_gate {HW} (H : Host HW) :
  (CPU_VendorID H <> cpuid.AMD ->
     sanityCheck H = Some "this is not an AMD processor") /\
  (CPU_VendorID H = cpuid.AMD -> CPU_Family H <> 0x17 ->
     exists msg,
       sanityCheck H = Some msg /\
       msg = "wrong family of AMD processors; expected 23 (17h), got "
               ++ fmt_d (CPU_Family H) /\
       occurs_in "23" msg /\ occurs_in "17h" msg /\
       occurs_in (fmt_d (CPU_Family H)) msg /\
       (forall H' : Host HW,
          sanityCheck H' = Some msg -> CPU_Family H' = CPU_Family H)) /\
  (CPU_VendorID H = cpuid.AMD -> CPU_Family H = 0x17 -> Geteuid H <> 0 ->
     sanityCheck H = Some "you need to be root to use this program") /\
  (sanityCheck H = None <->
     CPU_VendorID H = cpuid.AMD /\ CPU_Family H = 0x17 /\ Geteuid H = 0).
Proof.
  unfold sanityCheck, amdZenFamily.
  destruct (cpuid.eqb (CPU_VendorID H) cpuid.AMD) eqn:Ev; simpl.
  - apply cpuid_eqb_eq in Ev.
    destruct (Z.eqb_spec (CPU_Family H) 23) as [Ef|Ef]; simpl;
      [destruct (Z.eqb_spec (Geteuid H) 0) as [Eu|Eu]; simpl|].
    + repeat split; try tauto; try congruence.
    + repeat split; try tauto; try congruence; try discriminate.
    + split; [congruence|]. split; [|split; [tauto|]].
      * intros _ _. eexists. split; [reflexivity|]. split; [reflexivity|].
        repeat split.
        -- exists "wrong family of AMD processors; expected ".
           exists (" (17h), got " ++ fmt_d (CPU_Family H)). reflexivity.
        -- exists "wrong family of AMD processors; expected 23 (".
           exists ("), got " ++ fmt_d (CPU_Family H)). reflexivity.
        -- exists "wrong family of AMD processors; expected 23 (17h), got ".
           exists "". simpl. now rewrite append_nil_r.
        -- intros H' E. exact (wrong_family_names_family H' _ E).
      * split; [discriminate | tauto].
  - assert (Hv : CPU_VendorID H <> cpuid.AMD).
    { intros E. apply cpuid_eqb_eq in E. congruence. }
    repeat split; try tauto; try congruence; try discriminate.
Qed.

Lemma sanityCheck_gate_witness :
  sanityCheck intelRoot = Some "this is not an AMD processor" /\
  sanityCheck bulldozerRoot =
    Some "wrong family of AMD processors; expected 23 (17h), got 21" /\
  sanityCheck zenUser = Some "you need to be root to use this program" /\
  sanityCheck zenRoot = None.
Proof.
  split; [|split; [|split]].
  - apply (proj1 (sanityCheck_gate intelRoot)). discriminate.
  - destruct (proj1 (proj2 (sanityCheck_gate bulldozerRoot)))
      as (msg & E & -> & _); [reflexivity | discriminate | exact E].
  - apply (proj1 (proj2 (proj2 (sanityCheck_gate zenUser))));
      [reflexivity | reflexivity | discriminate].
  - apply (proj2 (proj2 (proj2 (sanityCheck_gate zenRoot)))).
    split; [|split]; reflexivity.
Defined.

(** ** The toggle actions *)

(** Each action is one print of its label, one call, one print of the
    outcome; the machine is the one the call leaves. *)
Lemma disableC6_run {HW} (H : Host HW) (hw : HW) :
  disableC6 H hw =
  (tt, snd (pkgDisable (package H c6) hw),
   [Printed "Disabling C6 C-state:   "; Called c6 Disable;
    Printed (outcome (fst (pkgDisable (package H c6) hw)))]).
Proof.
  unfold disableC6, bind, Print, call_Disable.
  destruct (pkgDisable (package H c6) hw) as [[e|] hw']; reflexivity.
Qed.

Lemma enableC6_run {HW} (H : Host HW) (hw : HW) :
  enableC6 H hw =
  (tt, snd (pkgEnable (package H c6) hw),
   [Printed "Enabling C6 C-state:   "; Called c6 Enable;
    Printed (outcome (fst (pkgEnable (package H c6) hw)))]).
Proof.
  unfold enableC6, bind, Print, call_Enable.
  destruct (pkgEnable (package H c6) hw) as [[e|] hw']; reflexivity.
Qed.

Lemma disableBoosting_run {HW} (H : Host HW) (hw : HW) :
  disableBoosting H hw =
  (tt, snd (pkgDisable (package H boosting) hw),
   [Printed "Disabling processor boosting:   "; Called boosting Disable;
    Printed (outcome (fst (pkgDisable (package H boosting) hw)))]).
Proof.
  unfold disableBoosting, bind, Print, call_Disable.
  destruct (pkgDisable (package H boosting) hw) as [[e|] hw']; reflexivity.
Qed.

Lemma enableBoosting_run {HW} (H : Host HW) (hw : HW) :
  enableBoosting H hw =
  (tt, snd (pkgEnable (package H boosting) hw),
   [Printed "Enabling processor boosting:   "; Called boosting Enable;
    Printed (outcome (fst (pkgEnable (package H boosting) hw)))]).
Proof.
  unfold enableBoosting, bind, Print, call_Enable.
  destruct (pkgEnable (package H boosting) hw) as [[e|] hw']; reflexivity.
Qed.

Lemma disableASLR_run {HW} (H : Host HW) (hw : HW) :
  disableASLR H hw =
  (tt, snd (pkgDisable (package H aslr) hw),
   [Printed "Disabling address space layout randomization (ASLR):   ";
    Called aslr Disable;
    Printed (outcome (fst (pkgDisable (package H aslr) hw)))]).
Proof.
  unfold disableASLR, bind, Print, call_Disable.
  destruct (pkgDisable (package H aslr) hw) as [[e|] hw']; reflexivity.
Qed.

Lemma enableASLR_run {HW} (H : Host HW) (hw : HW) :
  enableASLR H hw =
  (tt, snd (pkgEnable (package H aslr) hw),
   [Printed "Enabling address space layout randomization (ASLR):   ";
    Called aslr Enable;
    Printed (outcome (fst (pkgEnable (package H aslr) hw)))]).
Proof.
  unfold enableASLR, bind, Print, call_Enable.
  destruct (pkgEnable (package H aslr) hw) as [[e|] hw']; reflexivity.
Qed.

Lemma newlines_outcome (err : option error) :
  newlines (outcome err) = (1 + newlines_of err)%nat.
Proof.
  destruct err as [e|]; simpl; [|reflexivity].
  rewrite newlines_app. simpl. lia.
Qed.

Lemma one_outcome_line_intro {HW} (action : IO HW unit) (label : string)
    (f : Feature) (o : Op) (op : HW -> option error * HW) :
  newlines label = 0%nat ->
  (forall hw, action hw =
     (tt, snd (op hw),
      [Printed (label ++ ":   "); Called f o; Printed (outcome (fst (op hw)))])) ->
  one_outcome_line action label f o op.
Proof.
  intros N E hw. rewrite E.
  unfold events, machine; cbn [fst snd calls flat_map app stdout].
  rewrite append_nil_r.
  split; [reflexivity|]. split; [reflexivity|]. split.
  - rewrite append_assoc. do 2 f_equal. now destruct (fst (op hw)).
  - rewrite !newlines_app, newlines_outcome, N. reflexivity.
Qed.

(** C7. Every toggle action makes exactly one call into its package and
    prints exactly one outcome line: the action's label, a colon and three
    blanks, then [SUCCESS] when the call returns no error and [oops: <error>]
    when it returns one, then a line feed (the only one, unless the error
    text brings its own). *)
Theorem toggle_prints_one_outcome_line {HW} (H : Host HW) :
  one_outcome_line (disableC6 H) "Disabling C6 C-state"
    c6 Disable (pkgDisable (package H c6)) /\
  one_outcome_line (enableC6 H) "Enabling C6 C-state"
    c6 Enable (pkgEnable (package H c6)) /\
  one_outcome_line (disableBoosting H) "Disabling processor boosting"
    boosting Disable (pkgDisable (package H boosting)) /\
  one_outcome_line (enableBoosting H) "Enabling processor boosting"
    boosting Enable (pkgEnable (package H boosting)) /\
  one_outcome_line (disableASLR H)
    "Disabling address space layout randomization (ASLR)"
    aslr Disable (pkgDisable (package H aslr)) /\
  one_outcome_line (enableASLR H)
    "Enabling address space layout randomization (ASLR)"
    aslr Enable (pkgEnable (package H aslr)).
Proof.
  repeat match goal with |- _ /\ _ => split end;
    apply one_outcome_line_intro; try reflexivity; intros hw.
  - apply disableC6_run.
  - apply enableC6_run.
  - apply disableBoosting_run.
  - apply enableBoosting_run.
  - apply disableASLR_run.
  - apply enableASLR_run.
Qed.

(** ** The status report *)

Lemma showStatus_run {HW} (H : Host HW) (hw : HW) :
  let q1 := pkgEnabled (package H c6) hw in
  let q2 := pkgEnabled (package H aslr) (snd q1) in
  let q3 := pkgEnabled (package H boosting) (snd q2) in
  showStatus H hw =
  (tt, snd q3,
   [Called c6 Enabled; Printed (nl ++ c6Status (fst q1) ++ nl);
    Called aslr Enabled; Printed (aslrStatus (fst q2) ++ nl);
    Called boosting Enabled; Printed (boostingStatus (fst q3) ++ nl)]).
Proof.
  unfold showStatus, bind, Print, call_Enabled.
  destruct (pkgEnabled (package H c6) hw) as [r1 hw1]; simpl.
  destruct (pkgEnabled (package H aslr) hw1) as [r2 hw2]; simpl.
  destruct (pkgEnabled (package H boosting) hw2) as [r3 hw3]; reflexivity.
Qed.

Lemma c6Status_line (r : bool * option error) :
  is_c6_line (nl ++ c6Status r ++ nl) = true.
Proof.
  destruct r as [[|] [e|]]; try reflexivity; unfold is_c6_line;
    rewrite !orb_true_iff; right;
    exact (prefix_app (nl ++ "Error while obtaining status of C6 C-state: ")
                      (e ++ nl)).
Qed.

Lemma aslrStatus_line (r : bool * option error) :
  is_aslr_line (aslrStatus r ++ nl) = true.
Proof.
  destruct r as [[|] [e|]]; try reflexivity; unfold is_aslr_line;
    rewrite !orb_true_iff; right;
    exact (prefix_app "Error while obtaining status of ASLR: " (e ++ nl)).
Qed.

Lemma boostingStatus_line (r : bool * option error) :
  is_boosting_line (boostingStatus r ++ nl) = true.
Proof.
  destruct r as [[|] [e|]]; try reflexivity; unfold is_boosting_line;
    rewrite !orb_true_iff; right;
    exact (prefix_app "Error while obtaining status of processor boosting: "
                      (e ++ nl)).
Qed.

(** C8. Whatever the three status queries return, [showStatus] makes all
    three of them and prints all three lines: a query that returns an error
    turns its own line into an error report carrying that error, and the
    lines of the other features are printed as usual. *)
Theorem showStatus_reports_every_feature {HW} (H : Host HW) (hw : HW) :
  let q1 := pkgEnabled (package H c6) hw in
  let q2 := pkgEnabled (package H aslr) (snd q1) in
  let q3 := pkgEnabled (package H boosting) (snd q2) in
  calls (events (showStatus H hw)) = statusCalls /\
  printed (events (showStatus H hw)) =
    [nl ++ c6Status (fst q1) ++ nl;
     aslrStatus (fst q2) ++ nl;
     boostingStatus (fst q3) ++ nl] /\
  ends_with_status (events (showStatus H hw)) = true /\
  machine (showStatus H hw) = snd q3 /\
  (forall b e, c6Status (b, Some e) =
                 "Error while obtaining status of C6 C-state: " ++ e) /\
  (forall b e, aslrStatus (b, Some e) =
                 "Error while obtaining status of ASLR: " ++ e) /\
  (forall b e, boostingStatus (b, Some e) =
                 "Error while obtaining status of processor boosting: " ++ e) /\
  c6Status (true, None) = "C6 C-state is ENABLED." /\
  c6Status (false, None) = "C6 C-state is DISABLED." /\
  aslrStatus (true, None) = "ASLR is ENABLED." /\
  aslrStatus (false, None) = "ASLR is DISABLED." /\
  boostingStatus (true, None) = "Processor boosting is ENABLED." /\
  boostingStatus (false, None) = "Processor boosting is DISABLED.".
Proof.
  intros q1 q2 q3.
  pose proof (showStatus_run H hw) as E. cbv zeta in E.
  fold q1 in E. fold q2 in E. fold q3 in E. rewrite E.
  unfold events, machine, ends_with_status.
  cbn [fst snd calls printed flat_map app rev].
  rewrite c6Status_line, aslrStatus_line, boostingStatus_line.
  repeat match goal with |- _ /\ _ => split end; reflexivity.
Qed.

(** ** The dispatch blocks *)

Lemma outcome_not_status (err : option error) :
  is_status_line (outcome err) = false.
Proof. destruct err as [e|]; reflexivity. Qed.

Lemma toggles_intro {HW} (f : Feature) (o : Op) (m : IO HW unit)
    (label : string) (op : HW -> option error * HW) :
  isMutation (f, o) = true -> is_status_line label = false ->
  (forall hw, m hw =
     (tt, snd (op hw), [Printed label; Called f o; Printed (outcome (fst (op hw)))])) ->
  toggles f o m.
Proof.
  intros Hm Hl E hw. rewrite E. unfold events; cbn [snd].
  split; [reflexivity|]. split.
  - intros order. cbn [phases flat_map phase app].
    rewrite Hl, outcome_not_status.
    destruct o; [reflexivity | reflexivity | discriminate].
  - eexists; eexists; reflexivity.
Qed.

Lemma toggles_disableC6 {HW} (H : Host HW) : toggles c6 Disable (disableC6 H).
Proof.
  eapply toggles_intro; [reflexivity | | apply disableC6_run]; reflexivity.
Qed.

Lemma toggles_enableC6 {HW} (H : Host HW) : toggles c6 Enable (enableC6 H).
Proof.
  eapply toggles_intro; [reflexivity | | apply enableC6_run]; reflexivity.
Qed.

Lemma toggles_disableBoosting {HW} (H : Host HW) :
  toggles boosting Disable (disableBoosting H).
Proof.
  eapply toggles_intro; [reflexivity | | apply disableBoosting_run]; reflexivity.
Qed.

Lemma toggles_enableBoosting {HW} (H : Host HW) :
  toggles boosting Enable (enableBoosting H).
Proof.
  eapply toggles_intro; [reflexivity | | apply enableBoosting_run]; reflexivity.
Qed.

Lemma toggles_disableASLR {HW} (H : Host HW) :
  toggles aslr Disable (disableASLR H).
Proof.
  eapply toggles_intro; [reflexivity | | apply disableASLR_run]; reflexivity.
Qed.

Lemma toggles_enableASLR {HW} (H : Host HW) : toggles aslr Enable (enableASLR H).
Proof.
  eapply toggles_intro; [reflexivity | | apply enableASLR_run]; reflexivity.
Qed.

Section Blocks.

Context {HW : Type} (f : Feature) (en dis : IO HW unit).
Hypothesis Hen : toggles f Enable en.
Hypothesis Hdis : toggles f Disable dis.

Lemma flagBlock_calls (d e : bool) (hw : HW) :
  calls (events ((if d then dis else if e then en else ret tt) hw)) =
  flagCalls f d e.
Proof.
  unfold flagCalls. destruct d; [apply Hdis|]. destruct e; [apply Hen|].
  reflexivity.
Qed.

Lemma flagBlock_phases order (d e : bool) (hw : HW) :
  phases order (events ((if d then dis else if e then en else ret tt) hw)) =
  map (fun _ => order f) (flagCalls f d e).
Proof.
  unfold flagCalls. destruct d; [apply Hdis|]. destruct e; [apply Hen|].
  reflexivity.
Qed.

Lemma valueBlock_calls (v : string) (hw : HW) :
  calls (events ((if v =? "enable" then en
                  else if v =? "disable" then dis
                  else ret tt) hw)) =
  valueCalls f v.
Proof.
  unfold valueCalls. destruct (v =? "enable"); [apply Hen|].
  destruct (v =? "disable"); [apply Hdis|]. reflexivity.
Qed.

Lemma valueBlock_phases order (v : string) (hw : HW) :
  phases order (events ((if v =? "enable" then en
                         else if v =? "disable" then dis
                         else ret tt) hw)) =
  map (fun _ => order f) (valueCalls f v).
Proof.
  unfold valueCalls. destruct (v =? "enable"); [apply Hen|].
  destruct (v =? "disable"); [apply Hdis|]. reflexivity.
Qed.

End Blocks.

Lemma showStatus_calls {HW} (H : Host HW) (hw : HW) :
  calls (events (showStatus H hw)) = statusCalls.
Proof.
  pose proof (showStatus_run H hw) as E. cbv zeta in E. now rewrite E.
Qed.

Lemma showStatus_phases {HW} (H : Host HW) order (hw : HW) :
  phases order (events (showStatus H hw)) = [3; 3; 3; 3; 3; 3]%nat.
Proof.
  pose proof (showStatus_run H hw) as E. cbv zeta in E. rewrite E.
  unfold events; cbn [snd phases flat_map phase app]; unfold is_status_line.
  rewrite c6Status_line, aslrStatus_line, boostingStatus_line.
  now rewrite !orb_true_r.
Qed.

Lemma ends_with_showStatus {HW} (H : Host HW) (pre : list Event) (hw : HW) :
  ends_with_status (pre ++ events (showStatus H hw)) = true.
Proof.
  pose proof (showStatus_run H hw) as E. cbv zeta in E. rewrite E.
  unfold ends_with_status, events; cbn [snd].
  rewrite printed_app, rev_app_distr. cbn [printed flat_map app rev].
  now rewrite c6Status_line, aslrStatus_line, boostingStatus_line.
Qed.

(** ** [main]: the gate *)

Lemma main_gate_failed {HW} (L : GoLib) (H : Host HW) cmd (hw : HW) e :
  sanityCheck H = Some e ->
  main L H cmd hw =
  (tt, hw, [Printed banner; Printed ("Error: " ++ e ++ "." ++ nl)]).
Proof.
  intros Hg. unfold main, bind, Print. now rewrite Hg.
Qed.

Lemma main_config_path {HW} (L : GoLib) (H : Host HW) fl (hw : HW) :
  sanityCheck H = None -> configFilePtr fl <> "" ->
  main L H (Parsed fl) hw =
  (Print banner ;; handleConfigurationFile L H (configFilePtr fl)) hw.
Proof.
  intros Hg Hc. unfold main. rewrite Hg.
  apply String.eqb_neq in Hc. now rewrite Hc.
Qed.

(** C2. When [sanityCheck] returns an error, the run consists of the banner
    and one line [Error: <error>.] and nothing else: no call into any
    feature package is made (no enable, no disable, no status query), and
    the machine is left as it was. *)
Theorem failed_gate_aborts {HW} (L : GoLib) (H : Host HW) cmd (hw : HW) e :
  sanityCheck H = Some e ->
  events (main L H cmd hw) =
    [Printed banner; Printed ("Error: " ++ e ++ "." ++ nl)] /\
  calls (events (main L H cmd hw)) = [] /\
  machine (main L H cmd hw) = hw /\
  stdout (events (main L H cmd hw)) = banner ++ "Error: " ++ e ++ "." ++ nl.
Proof.
  intros Hg. rewrite (main_gate_failed L H cmd hw e Hg).
  unfold events, machine; cbn [fst snd calls flat_map app stdout].
  rewrite append_nil_r. repeat split.
Qed.

Lemma failed_gate_aborts_witness :
  events (main sampleLib intelRoot
            (Parsed (sampleFlags "" true false false true false true)) allOn) =
    [Printed banner;
     Printed ("Error: " ++ "this is not an AMD processor" ++ "." ++ nl)] /\
  machine (main sampleLib intelRoot
             (Parsed (sampleFlags "" true false false true false true)) allOn)
    = allOn.
Proof.
  destruct (failed_gate_aborts sampleLib intelRoot
              (Parsed (sampleFlags "" true false false true false true)) allOn
              "this is not an AMD processor" eq_refl) as (E & _ & M & _).
  exact (conj E M).
Defined.

(** ** [handleConfigurationFile]: files that do not load *)

(** C10. When the configuration file cannot be read, or its contents do not
    decode, [handleConfigurationFile] prints one error message and returns:
    it calls no feature package and leaves the machine as it was; so does a
    run of [main] that takes the configuration path. *)
Theorem unloadable_config_changes_nothing {HW} (L : GoLib) (H : Host HW)
    (configFile : string) (hw : HW) :
  (forall err, ReadFile H configFile = inr err ->
     handleConfigurationFile L H configFile hw =
     (tt, hw, [Printed ("Error: unable to read contents of config file "
                          ++ fmt_q L configFile ++ ": " ++ err ++ "." ++ nl)])) /\
  (forall buf err, ReadFile H configFile = inl buf ->
     toml_Decode L buf = inr err ->
     handleConfigurationFile L H configFile hw =
     (tt, hw, [Printed ("Error: problem parsing config file "
                          ++ fmt_q L configFile ++ ": " ++ err ++ "." ++ nl
                          ++ nl)])) /\
  (loads L H configFile = false ->
     calls (events (handleConfigurationFile L H configFile hw)) = [] /\
     machine (handleConfigurationFile L H configFile hw) = hw /\
     forall fl, sanityCheck H = None -> configFilePtr fl = configFile ->
                configFile <> "" ->
       calls (events (main L H (Parsed fl) hw)) = [] /\
       machine (main L H (Parsed fl) hw) = hw).
Proof.
  assert (R : forall err, ReadFile H configFile = inr err ->
     handleConfigurationFile L H configFile hw =
     (tt, hw, [Printed ("Error: unable to read contents of config file "
                          ++ fmt_q L configFile ++ ": " ++ err ++ "." ++ nl)])).
  { intros err E. unfold handleConfigurationFile. now rewrite E. }
  assert (D : forall buf err, ReadFile H configFile = inl buf ->
     toml_Decode L buf = inr err ->
     handleConfigurationFile L H configFile hw =
     (tt, hw, [Printed ("Error: problem parsing config file "
                          ++ fmt_q L configFile ++ ": " ++ err ++ "." ++ nl
                          ++ nl)])).
  { intros buf err E1 E2. unfold handleConfigurationFile. now rewrite E1, E2. }
  split; [exact R|]. split; [exact D|].
  intros Hl.
  assert (E : exists msg,
             handleConfigurationFile L H configFile hw = (tt, hw, [Printed msg])).
  { unfold loads in Hl.
    destruct (ReadFile H configFile) as [buf|err] eqn:E1.
    - destruct (toml_Decode L buf) as [st|err] eqn:E2; [discriminate|].
      eexists. exact (D buf err eq_refl E2).
    - eexists. exact (R err eq_refl). }
  destruct E as (msg & E).
  split; [now rewrite E|]. split; [now rewrite E|].
  intros fl Hg <- Hc.
  rewrite (main_config_path L H fl hw Hg Hc).
  rewrite events_bind, machine_bind, calls_app.
  unfold Print at 2 3; cbn [machine value fst snd].
  rewrite E. split; reflexivity.
Qed.

Lemma unloadable_config_changes_nothing_witness :
  machine (main sampleLib zenRoot
             (Parsed (sampleFlags "/etc/missing.toml"
                        false true false true false true)) allOn) = allOn /\
  machine (main sampleLib zenRoot
             (Parsed (sampleFlags "/etc/broken.toml"
                        false true false true false true)) allOn) = allOn.
Proof.
  split.
  - apply (proj2 (proj2 (unloadable_config_changes_nothing sampleLib zenRoot
                           "/etc/missing.toml" allOn)));
      [reflexivity | reflexivity | reflexivity | discriminate].
  - apply (proj2 (proj2 (unloadable_config_changes_nothing sampleLib zenRoot
                           "/etc/broken.toml" allOn)));
      [reflexivity | reflexivity | reflexivity | discriminate].
Defined.

(** ** [handleConfigurationFile]: files that load *)

Lemma handleConfigurationFile_calls {HW} (L : GoLib) (H : Host HW)
    (configFile : string) (hw : HW) buf st :
  ReadFile H configFile = inl buf -> toml_Decode L buf = inl st ->
  calls (events (handleConfigurationFile L H configFile hw)) =
  (valueCalls boosting (ToLower L (Boosting st)) ++
   valueCalls c6 (ToLower L (C6 st)) ++
   valueCalls aslr (ToLower L (ASLR st)) ++ statusCalls)%list.
Proof.
  intros E1 E2. unfold handleConfigurationFile. rewrite E1, E2.
  rewrite !events_bind, !calls_app. cbv zeta.
  rewrite (valueBlock_calls boosting _ _
             (toggles_enableBoosting H) (toggles_disableBoosting H)).
  rewrite (valueBlock_calls c6 _ _ (toggles_enableC6 H) (toggles_disableC6 H)).
  rewrite (valueBlock_calls aslr _ _
             (toggles_enableASLR H) (toggles_disableASLR H)).
  now rewrite showStatus_calls.
Qed.

Lemma main_config_calls {HW} (L : GoLib) (H : Host HW) fl (hw : HW) :
  sanityCheck H = None -> configFilePtr fl <> "" ->
  calls (events (main L H (Parsed fl) hw)) =
  calls (events (handleConfigurationFile L H (configFilePtr fl) hw)).
Proof.
  intros Hg Hc. rewrite (main_config_path L H fl hw Hg Hc).
  now rewrite events_bind, calls_app.
Qed.

Lemma mutationsOf_valueCalls (f g : Feature) (v : string) :
  filter (fun c => Feature_eqb (fst c) f) (filter isMutation (valueCalls g v)) =
  if Feature_eqb g f then valueCalls g v else [].
Proof.
  unfold valueCalls.
  destruct (v =? "enable"); [now destruct f, g|].
  destruct (v =? "disable"); now destruct f, g.
Qed.

Lemma mutationsOf_flagCalls (f g : Feature) (d e : bool) :
  filter (fun c => Feature_eqb (fst c) f) (filter isMutation (flagCalls g d e)) =
  if Feature_eqb g f then flagCalls g d e else [].
Proof. now destruct d, e, f, g. Qed.

(** C5. When [--config] carries a non-empty path, the enable and disable
    flags do not matter: two command lines with the same path give the same
    run, whatever their other flags.  With a file that decodes to
    boosting = "enable", c6 = "disable" and no aslr, the mutations are
    exactly: enable boosting, disable C6 (nothing for ASLR), also under
    [--disable-boosting]. *)
Theorem config_overrides_flags {HW} (L : GoLib) (H : Host HW) (hw : HW)
    (fl1 fl2 : Flags) :
  configFilePtr fl1 = configFilePtr fl2 -> configFilePtr fl1 <> "" ->
  main L H (Parsed fl1) hw = main L H (Parsed fl2) hw /\
  (forall buf st,
     sanityCheck H = None ->
     ReadFile H (configFilePtr fl1) = inl buf -> toml_Decode L buf = inl st ->
     Boosting st = "enable" -> C6 st = "disable" -> ASLR st = "" ->
     mutations (events (main L H (Parsed fl1) hw)) =
       [(boosting, Enable); (c6, Disable)]).
Proof.
  intros Heq Hc. split.
  - unfold main. rewrite <- Heq.
    apply String.eqb_neq in Hc. now rewrite Hc.
  - intros buf st Hg E1 E2 Eb Ec Ea.
    unfold mutations.
    rewrite (main_config_calls L H fl1 hw Hg Hc).
    rewrite (handleConfigurationFile_calls L H _ hw buf st E1 E2).
    rewrite Eb, Ec, Ea. reflexivity.
Qed.

Lemma config_overrides_flags_witness :
  main sampleLib zenRoot
    (Parsed (sampleFlags "/etc/ryzen.toml" false false false true false false))
    allOn =
  main sampleLib zenRoot
    (Parsed (sampleFlags "/etc/ryzen.toml" false false false false false false))
    allOn /\
  mutations (events (main sampleLib zenRoot
    (Parsed (sampleFlags "/etc/ryzen.toml" false false false true false false))
    allOn)) = [(boosting, Enable); (c6, Disable)].
Proof.
  destruct (config_overrides_flags sampleLib zenRoot allOn
              (sampleFlags "/etc/ryzen.toml" false false false true false false)
              (sampleFlags "/etc/ryzen.toml" false false false false false false)
              eq_refl) as (E & S).
  - discriminate.
  - split; [exact E|].
    apply (S sampleDoc {| C6 := "disable"; Boosting := "enable"; ASLR := "" |});
      reflexivity.
Defined.







(** ** [main]: the flag path *)

Lemma main_flags_calls {HW} (L : GoLib) (H : Host HW) fl (hw : HW) :
  sanityCheck H = None -> configFilePtr fl = "" ->
  calls (events (main L H (Parsed fl) hw)) =
  (flagCalls c6 (disableC6Ptr fl) (enableC6Ptr fl) ++
   flagCalls boosting (disableBoostingPtr fl) (enableBoostingPtr fl) ++
   flagCalls aslr (disableASLRPtr fl) (enableASLRPtr fl) ++ statusCalls)%list.
Proof.
  intros Hg Hc. unfold main. rewrite events_bind. cbv beta. rewrite Hg, Hc.
  cbn [String.eqb negb]. rewrite !events_bind, !calls_app.
  rewrite (flagBlock_calls c6 _ _ (toggles_enableC6 H) (toggles_disableC6 H)).
  rewrite (flagBlock_calls boosting _ _
             (toggles_enableBoosting H) (toggles_disableBoosting H)).
  rewrite (flagBlock_calls aslr _ _
             (toggles_enableASLR H) (toggles_disableASLR H)).
  now rewrite showStatus_calls.
Qed.

(** C9. On the flag path, a feature whose disable flag is set is disabled
    and nothing else is done to it: its [Disable] is the only mutation made
    for it, whether or not its enable flag is set as well. *)
Theorem disable_flag_wins {HW} (L : GoLib) (H : Host HW) fl (hw : HW) :
  sanityCheck H = None -> configFilePtr fl = "" ->
  (disableC6Ptr fl = true ->
     mutationsOf c6 (events (main L H (Parsed fl) hw)) = [(c6, Disable)]) /\
  (disableBoostingPtr fl = true ->
     mutationsOf boosting (events (main L H (Parsed fl) hw)) =
       [(boosting, Disable)]) /\
  (disableASLRPtr fl = true ->
     mutationsOf aslr (events (main L H (Parsed fl) hw)) = [(aslr, Disable)]).
Proof.
  intros Hg Hc. unfold mutationsOf, mutations.
  rewrite (main_flags_calls L H fl hw Hg Hc).
  rewrite !filter_app, !mutationsOf_flagCalls.
  cbn [statusCalls filter isMutation snd Feature_eqb app]. rewrite !app_nil_r.
  repeat split; intros ->; reflexivity.
Qed.

Lemma disable_flag_wins_witness :
  mutationsOf c6
    (events (main sampleLib zenRoot
               (Parsed (sampleFlags "" true true true false false false)) allOn))
  = [(c6, Disable)].
Proof.
  apply (proj1 (disable_flag_wins sampleLib zenRoot
                  (sampleFlags "" true true true false false false) allOn
                  eq_refl eq_refl)).
  reflexivity.
Defined.

(** ** Order of the mutations and the status report *)

Lemma banner_not_status : is_status_line banner = false.
Proof. reflexivity. Qed.

Lemma main_flags_phases {HW} (L : GoLib) (H : Host HW) order fl (hw : HW) :
  sanityCheck H = None -> configFilePtr fl = "" ->
  phases order (events (main L H (Parsed fl) hw)) =
  (map (fun _ => order c6) (flagCalls c6 (disableC6Ptr fl) (enableC6Ptr fl)) ++
   map (fun _ => order boosting)
     (flagCalls boosting (disableBoostingPtr fl) (enableBoostingPtr fl)) ++
   map (fun _ => order aslr)
     (flagCalls aslr (disableASLRPtr fl) (enableASLRPtr fl)) ++
   [3; 3; 3; 3; 3; 3])%list%nat.
Proof.
  intros Hg Hc. unfold main. rewrite events_bind. cbv beta. rewrite Hg, Hc.
  cbn [String.eqb negb]. rewrite !events_bind, !phases_app.
  rewrite (flagBlock_phases c6 _ _ (toggles_enableC6 H) (toggles_disableC6 H)).
  rewrite (flagBlock_phases boosting _ _
             (toggles_enableBoosting H) (toggles_disableBoosting H)).
  rewrite (flagBlock_phases aslr _ _
             (toggles_enableASLR H) (toggles_disableASLR H)).
  rewrite showStatus_phases.
  unfold Print, events; cbn [snd phases flat_map phase app].
  now rewrite banner_not_status.
Qed.

Lemma handleConfigurationFile_phases {HW} (L : GoLib) (H : Host HW) order
    (configFile : string) (hw : HW) :
  phases order (events (handleConfigurationFile L H configFile hw)) = [] \/
  exists st,
    phases order (events (handleConfigurationFile L H configFile hw)) =
    (map (fun _ => order boosting) (valueCalls boosting (ToLower L (Boosting st))) ++
     map (fun _ => order c6) (valueCalls c6 (ToLower L (C6 st))) ++
     map (fun _ => order aslr) (valueCalls aslr (ToLower L (ASLR st))) ++
     [3; 3; 3; 3; 3; 3])%list%nat.
Proof.
  unfold handleConfigurationFile.
  destruct (ReadFile H configFile) as [buf|err]; [|left; reflexivity].
  destruct (toml_Decode L buf) as [st|err]; [|left; reflexivity].
  right. exists st.
  rewrite !events_bind, !phases_app. cbv zeta.
  rewrite (valueBlock_phases boosting _ _
             (toggles_enableBoosting H) (toggles_disableBoosting H)).
  rewrite (valueBlock_phases c6 _ _ (toggles_enableC6 H) (toggles_disableC6 H)).
  rewrite (valueBlock_phases aslr _ _
             (toggles_enableASLR H) (toggles_disableASLR H)).
  rewrite showStatus_phases. reflexivity.
Qed.

(** Counterexample to C3 as stated: on the flag path, with
    [--enable-c6 --enable-boosting], the C6 mutation comes before the Boost
    mutation. *)
Lemma boost_first_fails_on_flags :
  mutations (events (main sampleLib zenRoot
    (Parsed (sampleFlags "" true false true false false false)) allOn)) =
    [(c6, Enable); (boosting, Enable)] /\
  in_order boostFirst (events (main sampleLib zenRoot
    (Parsed (sampleFlags "" true false true false false false)) allOn)) = false.
Proof. split; reflexivity. Qed.

(** C3, amended. On the configuration-file path the mutations are applied in
    the order Boost, C6, ASLR; on the flag path in the order C6, Boost, ASLR;
    on both paths every status query and status line comes after every
    mutation. *)
Theorem mutations_in_order_then_status {HW} (L : GoLib) (H : Host HW) fl
    (hw : HW) :
  (configFilePtr fl <> "" ->
     in_order boostFirst (events (main L H (Parsed fl) hw)) = true) /\
  (configFilePtr fl = "" ->
     in_order c6First (events (main L H (Parsed fl) hw)) = true).
Proof.
  destruct (sanityCheck H) as [e|] eqn:Hg.
  - rewrite (main_gate_failed L H (Parsed fl) hw e Hg).
    split; reflexivity.
  - split; intros Hc.
    + rewrite (main_config_path L H fl hw Hg Hc).
      unfold in_order. rewrite events_bind, phases_app.
      unfold Print at 1, events at 1; cbn [snd phases flat_map phase app].
      rewrite banner_not_status. cbn [app].
      destruct (handleConfigurationFile_phases L H boostFirst (configFilePtr fl)
                  (machine (Print banner hw))) as [E|(st & E)];
        fold (phases boostFirst) in *; rewrite E; [reflexivity|].
      unfold valueCalls.
      destruct (ToLower L (Boosting st) =? "enable"),
               (ToLower L (Boosting st) =? "disable"),
               (ToLower L (C6 st) =? "enable"),
               (ToLower L (C6 st) =? "disable"),
               (ToLower L (ASLR st) =? "enable"),
               (ToLower L (ASLR st) =? "disable"); reflexivity.
    + unfold in_order. rewrite (main_flags_phases L H c6First fl hw Hg Hc).
      destruct (disableC6Ptr fl), (enableC6Ptr fl), (disableBoostingPtr fl),
               (enableBoostingPtr fl), (disableASLRPtr fl), (enableASLRPtr fl);
        reflexivity.
Qed.

Lemma mutations_in_order_then_status_witness :
  in_order boostFirst (events (main sampleLib zenRoot
    (Parsed (sampleFlags "/etc/shouting.toml" true false true false false false))
    allOn)) = true /\
  in_order c6First (events (main sampleLib zenRoot
    (Parsed (sampleFlags "" true false true false false false)) allOn)) = true.
Proof.
  split.
  - apply (proj1 (mutations_in_order_then_status sampleLib zenRoot
                    (sampleFlags "/etc/shouting.toml"
                       true false true false false false) allOn)).
    discriminate.
  - apply (proj2 (mutations_in_order_then_status sampleLib zenRoot
                    (sampleFlags "" true false true false false false) allOn)).
    reflexivity.
Defined.

(** ** The status report at the end of a run *)

(** Counterexample to C4 as stated: a run stopped by the gate, a run whose
    configuration file cannot be read and a run whose configuration file
    does not decode all end without any status line. *)
Lemma no_status_after_early_return :
  ends_with_status (events (main sampleLib intelRoot (Parsed noFlags) allOn))
    = false /\
  printed (events (main sampleLib intelRoot (Parsed noFlags) allOn)) =
    [banner; "Error: this is not an AMD processor." ++ nl] /\
  ends_with_status (events (main sampleLib zenRoot
    (Parsed (sampleFlags "/etc/missing.toml" false false false false false false))
    allOn)) = false /\
  ends_with_status (events (main sampleLib zenRoot
    (Parsed (sampleFlags "/etc/broken.toml" false false false false false false))
    allOn)) = false.
Proof. repeat split; reflexivity. Qed.

(** C4, amended. Every run that passes the gate, whose command line parses,
    and that either takes the flag path or takes the configuration path with
    a file that is read and decoded, ends by printing the three status lines
    for C6, ASLR and Boost, in this order: also when no toggle was asked for,
    and also when a toggle or a status query failed. *)
Theorem completed_run_ends_with_status {HW} (L : GoLib) (H : Host HW) fl
    (hw : HW) :
  sanityCheck H = None ->
  configFilePtr fl = "" \/ loads L H (configFilePtr fl) = true ->
  ends_with_status (events (main L H (Parsed fl) hw)) = true.
Proof.
  intros Hg [Hc|Hl].
  - unfold main. rewrite events_bind. cbv beta. rewrite Hg, Hc.
    cbn [String.eqb negb]. rewrite !events_bind, !app_assoc.
    apply ends_with_showStatus.
  - destruct (String.eqb_spec (configFilePtr fl) "") as [Hc|Hc].
    + unfold main. rewrite events_bind. cbv beta. rewrite Hg, Hc.
      cbn [String.eqb negb]. rewrite !events_bind, !app_assoc.
      apply ends_with_showStatus.
    + rewrite (main_config_path L H fl hw Hg Hc).
      rewrite events_bind. unfold handleConfigurationFile, loads in *.
      destruct (ReadFile H (configFilePtr fl)) as [buf|err]; [|discriminate].
      destruct (toml_Decode L buf) as [st|err]; [|discriminate].
      rewrite !events_bind, !app_assoc.
      apply ends_with_showStatus.
Qed.

Lemma completed_run_ends_with_status_witness :
  ends_with_status (events (main sampleLib zenRootBroken
    (Parsed (sampleFlags "" true false false true false false)) allOn)) = true /\
  ends_with_status (events (main sampleLib zenRoot
    (Parsed (sampleFlags "/etc/ryzen.toml" false false false false false false))
    allOn)) = true /\
  ends_with_status (events (main sampleLib zenRoot (Parsed noFlags) allOn))
    = true.
Proof.
  split; [|split].
  - apply (completed_run_ends_with_status sampleLib zenRootBroken
             (sampleFlags "" true false false true false false) allOn eq_refl).
    left. reflexivity.
  - apply (completed_run_ends_with_status sampleLib zenRoot
             (sampleFlags "/etc/ryzen.toml" false false false false false false)
             allOn eq_refl).
    right. reflexivity.
  - apply (completed_run_ends_with_status sampleLib zenRoot noFlags allOn eq_refl).
    left. reflexivity.
Defined.

(** * Further properties of the dispatcher *)

(** ** The calls of a run are decided before any package is called *)

Lemma handleConfigurationFile_no_load {HW} (L : GoLib) (H : Host HW)
    (configFile : string) (hw : HW) :
  loads L H configFile = false ->
  handleConfigurationFile L H configFile hw
  = (tt, hw, events (handleConfigurationFile L H configFile hw)) /\
  calls (events (handleConfigurationFile L H configFile hw)) = [].
Proof.
  unfold loads, handleConfigurationFile.
  destruct (ReadFile H configFile) as [buf|err]; [|split; reflexivity].
  destruct (toml_Decode L buf) as [st|err]; [discriminate | split; reflexivity].
Qed.

Lemma main_calls {HW} (L : GoLib) (H : Host HW) cmd (hw : HW) :
  calls (events (main L H cmd hw)) = plannedCalls L H cmd.
Proof.
  unfold plannedCalls.
  destruct (sanityCheck H) as [e|] eqn:Hg.
  - now rewrite (main_gate_failed L H cmd hw e Hg).
  - destruct cmd as [fl|].
    + destruct (String.eqb_spec (configFilePtr fl) "") as [Hc|Hc]; cbn [negb].
      * apply (main_flags_calls L H fl hw Hg Hc).
      * rewrite (main_config_calls L H fl hw Hg Hc).
        destruct (ReadFile H (configFilePtr fl)) as [buf|err] eqn:E1.
        -- destruct (toml_Decode L buf) as [st|err] eqn:E2.
           ++ apply (handleConfigurationFile_calls L H _ hw buf st E1 E2).
           ++ apply handleConfigurationFile_no_load. unfold loads.
              now rewrite E1, E2.
        -- apply handleConfigurationFile_no_load. unfold loads. now rewrite E1.
    + unfold main. rewrite events_bind. cbv beta. now rewrite Hg.
Qed.

Lemma mutations_valueCalls (f : Feature) (v : string) :
  filter isMutation (valueCalls f v) = valueCalls f v.
Proof.
  unfold valueCalls. destruct (v =? "enable"); [reflexivity|].
  now destruct (v =? "disable").
Qed.

Lemma mutations_flagCalls (f : Feature) (d e : bool) :
  filter isMutation (flagCalls f d e) = flagCalls f d e.
Proof. now destruct d, e. Qed.

(** X1. On the flag path the two flags of a feature decide what is done to
    it and to no other feature: the disable flag calls [Disable] once; the
    enable flag alone calls [Enable] once; with neither flag the feature is
    not touched. *)
Theorem flags_decide_each_feature {HW} (L : GoLib) (H : Host HW) fl (hw : HW) :
  sanityCheck H = None -> configFilePtr fl = "" ->
  forall f,
    let done := mutationsOf f (events (main L H (Parsed fl) hw)) in
    (disableFlag f fl = true -> done = [(f, Disable)]) /\
    (disableFlag f fl = false -> enableFlag f fl = true ->
       done = [(f, Enable)]) /\
    (disableFlag f fl = false -> enableFlag f fl = false -> done = []).
Proof.
  intros Hg Hc f done. subst done. unfold mutationsOf, mutations.
  rewrite (main_flags_calls L H fl hw Hg Hc).
  rewrite !filter_app, !mutationsOf_flagCalls.
  cbn [statusCalls filter isMutation snd]. rewrite !app_nil_r.
  destruct f; cbn [Feature_eqb disableFlag enableFlag app];
    rewrite ?app_nil_r;
    (split; [intros ->; reflexivity|]);
    (split; [intros -> ->; reflexivity | intros -> ->; reflexivity]).
Qed.

Lemma flags_decide_each_feature_witness :
  mutationsOf boosting
    (events (main sampleLib zenRoot
               (Parsed (sampleFlags "" false true true false false false))
               allOn)) = [(boosting, Enable)] /\
  mutationsOf aslr
    (events (main sampleLib zenRoot
               (Parsed (sampleFlags "" false true true false false false))
               allOn)) = [].
Proof.
  split.
  - apply (proj1 (proj2 (flags_decide_each_feature sampleLib zenRoot
                           (sampleFlags "" false true true false false false)
                           allOn eq_refl eq_refl boosting))); reflexivity.
  - apply (proj2 (proj2 (flags_decide_each_feature sampleLib zenRoot
                           (sampleFlags "" false true true false false false)
                           allOn eq_refl eq_refl aslr))); reflexivity.
Defined.

(** X2. In every run, whatever the host, the command line and the
    configuration file, each feature is mutated at most once (so never both
    enabled and disabled), and the run makes at most six package calls. *)
Theorem at_most_one_mutation_per_feature {HW} (L : GoLib) (H : Host HW) cmd
    (hw : HW) (f : Feature) :
  (List.length (mutationsOf f (events (main L H cmd hw))) <= 1)%nat /\
  (List.length (calls (events (main L H cmd hw))) <= 6)%nat.
Proof.
  unfold mutationsOf, mutations. rewrite main_calls. unfold plannedCalls.
  destruct (sanityCheck H); [split; simpl; lia|].
  destruct cmd as [fl|]; [|split; simpl; lia].
  destruct (negb (configFilePtr fl =? "")).
  - destruct (ReadFile H (configFilePtr fl)) as [buf|]; [|split; simpl; lia].
    destruct (toml_Decode L buf) as [st|]; [|split; simpl; lia].
    rewrite !filter_app, !mutationsOf_valueCalls, !length_app.
    unfold valueCalls.
    destruct f, (ToLower L (Boosting st) =? "enable"),
      (ToLower L (Boosting st) =? "disable"),
      (ToLower L (C6 st) =? "enable"), (ToLower L (C6 st) =? "disable"),
      (ToLower L (ASLR st) =? "enable"), (ToLower L (ASLR st) =? "disable");
      split; simpl; lia.
  - rewrite !filter_app, !mutationsOf_flagCalls, !length_app.
    destruct f, (disableC6Ptr fl), (enableC6Ptr fl), (disableBoostingPtr fl),
      (enableBoostingPtr fl), (disableASLRPtr fl), (enableASLRPtr fl);
      split; simpl; lia.
Qed.

(** X3. Which package functions a run calls, and in which order, does not
    depend on what the packages return or do to the machine: two hosts with
    the same processor identity, user id and files make the same calls for
    the same command line.  A toggle that fails therefore stops neither the
    toggles after it nor the status report. *)
Theorem calls_do_not_depend_on_packages {HW1 HW2} (L : GoLib)
    (H1 : Host HW1) (H2 : Host HW2) cmd (hw1 : HW1) (hw2 : HW2) :
  CPU_VendorID H1 = CPU_VendorID H2 ->
  CPU_Family H1 = CPU_Family H2 ->
  Geteuid H1 = Geteuid H2 ->
  (forall path, ReadFile H1 path = ReadFile H2 path) ->
  calls (events (main L H1 cmd hw1)) = calls (events (main L H2 cmd hw2)).
Proof.
  intros Ev Ef Eu Er. rewrite !main_calls.
  unfold plannedCalls, sanityCheck. rewrite Ev, Ef, Eu.
  destruct cmd as [fl|]; [|reflexivity].
  now rewrite (Er (configFilePtr fl)).
Qed.

Lemma calls_do_not_depend_on_packages_witness :
  calls (events (main sampleLib zenRootBroken
    (Parsed (sampleFlags "" true false false true false true)) allOn)) =
  calls (events (main sampleLib zenRoot
    (Parsed (sampleFlags "" true false false true false true)) allOn)).
Proof.
  apply (calls_do_not_depend_on_packages sampleLib zenRootBroken zenRoot);
    reflexivity.
Defined.

(** ** The two ways of asking for a mutation *)

Lemma mutationsOf_handleConfigurationFile {HW} (L : GoLib) (H : Host HW)
    (configFile : string) (hw : HW) buf st (f : Feature) :
  ReadFile H configFile = inl buf -> toml_Decode L buf = inl st ->
  mutationsOf f (events (handleConfigurationFile L H configFile hw)) =
  valueCalls f (ToLower L (field f st)).
Proof.
  intros E1 E2. unfold mutationsOf, mutations.
  rewrite (handleConfigurationFile_calls L H configFile hw buf st E1 E2).
  rewrite !filter_app, !mutationsOf_valueCalls.
  cbn [statusCalls filter isMutation snd]. rewrite !app_nil_r.
  destruct f; cbn [Feature_eqb field app]; now rewrite ?app_nil_r.
Qed.

Lemma mutationsOf_main_flags {HW} (L : GoLib) (H : Host HW) fl (hw : HW)
    (f : Feature) :
  sanityCheck H = None -> configFilePtr fl = "" ->
  mutationsOf f (events (main L H (Parsed fl) hw)) =
  flagCalls f (disableFlag f fl) (enableFlag f fl).
Proof.
  intros Hg Hc. unfold mutationsOf, mutations.
  rewrite (main_flags_calls L H fl hw Hg Hc).
  rewrite !filter_app, !mutationsOf_flagCalls.
  cbn [statusCalls filter isMutation snd]. rewrite !app_nil_r.
  destruct f; cbn [Feature_eqb disableFlag enableFlag app];
    now rewrite ?app_nil_r.
Qed.

Lemma mutationsOf_main_config {HW} (L : GoLib) (H : Host HW) fl (hw : HW)
    (f : Feature) :
  sanityCheck H = None -> configFilePtr fl <> "" ->
  mutationsOf f (events (main L H (Parsed fl) hw)) =
  mutationsOf f (events (handleConfigurationFile L H (configFilePtr fl) hw)).
Proof.
  intros Hg Hc. unfold mutationsOf, mutations.
  now rewrite (main_config_calls L H fl hw Hg Hc).
Qed.

(** X4. A configuration file and a set of flags that ask for the same thing
    feature by feature (value "enable" against the enable flag alone, value
    "disable" against the disable flag, any other value against neither
    flag) make the same mutation of every feature; the two runs make the
    same mutations up to their order. *)
Theorem config_and_flags_agree {HW} (L : GoLib) (H : Host HW)
    (viaConfig viaFlags : Flags) (hw hw' : HW) buf st :
  sanityCheck H = None ->
  configFilePtr viaConfig <> "" ->
  ReadFile H (configFilePtr viaConfig) = inl buf ->
  toml_Decode L buf = inl st ->
  configFilePtr viaFlags = "" ->
  (forall f, flagCalls f (disableFlag f viaFlags) (enableFlag f viaFlags) =
             valueCalls f (ToLower L (field f st))) ->
  (forall f, mutationsOf f (events (main L H (Parsed viaConfig) hw)) =
             mutationsOf f (events (main L H (Parsed viaFlags) hw'))) /\
  Permutation (mutations (events (main L H (Parsed viaConfig) hw)))
              (mutations (events (main L H (Parsed viaFlags) hw'))).
Proof.
  intros Hg Hc E1 E2 Hf Same. split.
  - intros f.
    rewrite (mutationsOf_main_config L H viaConfig hw f Hg Hc).
    rewrite (mutationsOf_handleConfigurationFile L H _ hw buf st f E1 E2).
    rewrite (mutationsOf_main_flags L H viaFlags hw' f Hg Hf).
    symmetry. apply Same.
  - unfold mutations.
    rewrite (main_config_calls L H viaConfig hw Hg Hc).
    rewrite (handleConfigurationFile_calls L H _ hw buf st E1 E2).
    rewrite (main_flags_calls L H viaFlags hw' Hg Hf).
    pose proof (Same c6) as S1. pose proof (Same boosting) as S2.
    pose proof (Same aslr) as S3.
    cbn [disableFlag enableFlag field] in S1, S2, S3. rewrite S1, S2, S3.
    rewrite !filter_app, !mutations_valueCalls.
    apply Permutation_app_swap_app.
Qed.

Lemma config_and_flags_agree_witness :
  Permutation
    (mutations (events (main sampleLib zenRoot
       (Parsed (sampleFlags "/etc/ryzen.toml" false false false false false false))
       allOn)))
    (mutations (events (main sampleLib zenRoot
       (Parsed (sampleFlags "" false true true false false false)) allOn))).
Proof.
  apply (config_and_flags_agree sampleLib zenRoot
           (sampleFlags "/etc/ryzen.toml" false false false false false false)
           (sampleFlags "" false true true false false false) allOn allOn
           sampleDoc {| C6 := "disable"; Boosting := "enable"; ASLR := "" |});
    try reflexivity; try discriminate.
  intros f; destruct f; reflexivity.
Defined.

(** ** Values that are not recognised *)

(** X5. A configuration value is matched as a whole word: a value that
    lowers to "enable" or "disable" followed by anything more (as the words
    "enabled" and "disabled" of the comment on [rsSettings] do) causes no
    mutation of its feature. *)
Theorem longer_words_do_nothing {HW} (L : GoLib) (H : Host HW)
    (configFile : string) (hw : HW) buf st (f : Feature) (word rest : string) :
  ReadFile H configFile = inl buf -> toml_Decode L buf = inl st ->
  word = "enable" \/ word = "disable" ->
  rest <> "" ->
  ToLower L (field f st) = word ++ rest ->
  mutationsOf f (events (handleConfigurationFile L H configFile hw)) = [].
Proof.
  intros E1 E2 Hw Hr Ev.
  rewrite (mutationsOf_handleConfigurationFile L H _ hw buf st f E1 E2), Ev.
  unfold valueCalls.
  destruct rest as [|c rest]; [now elim Hr|].
  destruct Hw as [-> | ->]; reflexivity.
Qed.

Lemma longer_words_do_nothing_witness :
  mutationsOf aslr
    (events (handleConfigurationFile sampleLib zenRoot "/etc/shouting.toml"
               allOn)) = [].
Proof.
  apply (longer_words_do_nothing sampleLib zenRoot "/etc/shouting.toml" allOn
           shoutingDoc
           {| C6 := "Disable"; Boosting := "ENABLE"; ASLR := "enabled" |}
           aslr "enable" "d");
    [reflexivity | reflexivity | left; reflexivity | discriminate | reflexivity].
Defined.

(** ** Runs that ask for nothing *)

(** X6. A run that passes the gate and asks for no mutation only reports:
    on the flag path with no flag set it is the banner followed by the
    status report; on the configuration path with no value that lowers to
    "enable" or "disable" it is the banner, the [Config file:] line and the
    status report.  In both cases the status report starts on the machine as
    the run found it. *)
Theorem run_without_toggles_only_reports {HW} (L : GoLib) (H : Host HW) fl
    (hw : HW) :
  sanityCheck H = None ->
  (configFilePtr fl = "" ->
   (forall f, disableFlag f fl = false /\ enableFlag f fl = false) ->
   events (main L H (Parsed fl) hw) =
     Printed banner :: events (showStatus H hw) /\
   machine (main L H (Parsed fl) hw) = machine (showStatus H hw)) /\
  (forall buf st,
     configFilePtr fl <> "" ->
     ReadFile H (configFilePtr fl) = inl buf -> toml_Decode L buf = inl st ->
     (forall f, ToLower L (field f st) <> "enable" /\
                ToLower L (field f st) <> "disable") ->
     events (main L H (Parsed fl) hw) =
       Printed banner
       :: Printed ("Config file: " ++ fmt_q L (configFilePtr fl) ++ nl)
       :: events (showStatus H hw) /\
     machine (main L H (Parsed fl) hw) = machine (showStatus H hw)).
Proof.
  intros Hg. split.
  - intros Hc No.
    destruct (No c6) as [D1 N1], (No boosting) as [D2 N2], (No aslr) as [D3 N3].
    cbn [disableFlag enableFlag] in *.
    unfold main, bind, Print, ret, events, machine.
    rewrite Hg, Hc, D1, N1, D2, N2, D3, N3. cbn [String.eqb negb].
    now destruct (showStatus H hw) as [[u hw1] t].
  - intros buf st Hc E1 E2 No.
    rewrite (main_config_path L H fl hw Hg Hc).
    destruct (No c6) as [N1 D1], (No boosting) as [N2 D2], (No aslr) as [N3 D3].
    cbn [field] in *.
    apply String.eqb_neq in N1, D1, N2, D2, N3, D3.
    unfold handleConfigurationFile, bind, Print, ret, events, machine.
    rewrite E1, E2. cbv zeta. rewrite N1, D1, N2, D2, N3, D3.
    now destruct (showStatus H hw) as [[u hw1] t].
Qed.

Lemma run_without_toggles_only_reports_witness :
  events (main sampleLib zenRoot (Parsed noFlags) allOn) =
    Printed banner :: events (showStatus zenRoot allOn) /\
  machine (main sampleLib zenRoot (Parsed noFlags) allOn) = allOn.
Proof.
  destruct (proj1 (run_without_toggles_only_reports sampleLib zenRoot noFlags
                     allOn eq_refl) eq_refl) as [E M].
  - intros f; destruct f; split; reflexivity.
  - split; [exact E | exact M].
Defined.

(** ** Standard output as a whole *)

Lemma stdout_app (t u : list Event) : stdout (t ++ u) = stdout t ++ stdout u.
Proof.
  induction t as [|[s|f o] t IH]; simpl; [reflexivity | | exact IH].
  now rewrite IH, append_assoc.
Qed.

Lemma ends_with_nl_app (a b : string) : ends_with_nl b -> ends_with_nl (a ++ b).
Proof.
  intros (s' & ->). exists (a ++ s'). now rewrite append_assoc.
Qed.

Lemma ends_with_nl_nl : ends_with_nl nl.
Proof. now exists "". Qed.

Lemma stdout_showStatus_ends {HW} (H : Host HW) (hw : HW) :
  ends_with_nl (stdout (events (showStatus H hw))).
Proof.
  pose proof (showStatus_run H hw) as E. cbv zeta in E. rewrite E.
  unfold events; cbn [snd stdout].
  rewrite append_nil_r. repeat apply ends_with_nl_app. apply ends_with_nl_nl.
Qed.

Lemma stdout_ends_before_showStatus {HW} (H : Host HW) (pre : list Event)
    (hw : HW) :
  ends_with_nl (stdout (pre ++ events (showStatus H hw))).
Proof.
  rewrite stdout_app. apply ends_with_nl_app, stdout_showStatus_ends.
Qed.

(** X7. Every run, whatever the host, the command line and the
    configuration file, writes the banner first (before the gate is
    checked), and what it writes ends with a line feed: no run stops in the
    middle of a line. *)
Theorem stdout_starts_with_banner_and_ends_a_line {HW} (L : GoLib)
    (H : Host HW) cmd (hw : HW) :
  (exists rest, stdout (events (main L H cmd hw)) = banner ++ rest) /\
  ends_with_nl (stdout (events (main L H cmd hw))).
Proof.
  split.
  - unfold main. rewrite events_bind, stdout_app.
    unfold Print at 1, events at 1; cbn [snd stdout].
    rewrite append_nil_r. eexists. reflexivity.
  - destruct (sanityCheck H) as [e|] eqn:Hg.
    + rewrite (main_gate_failed L H cmd hw e Hg).
      unfold events; cbn [snd stdout].
      rewrite append_nil_r. repeat apply ends_with_nl_app. apply ends_with_nl_nl.
    + destruct cmd as [fl|].
      * destruct (String.eqb_spec (configFilePtr fl) "") as [Hc|Hc].
        -- unfold main. rewrite events_bind. cbv beta. rewrite Hg, Hc.
           cbn [String.eqb negb]. rewrite !events_bind, !app_assoc.
           apply stdout_ends_before_showStatus.
        -- rewrite (main_config_path L H fl hw Hg Hc).
           rewrite events_bind. unfold handleConfigurationFile.
           destruct (ReadFile H (configFilePtr fl)) as [buf|err].
           ++ destruct (toml_Decode L buf) as [st|err].
              ** rewrite !events_bind, !app_assoc.
                 apply stdout_ends_before_showStatus.
              ** rewrite stdout_app. apply ends_with_nl_app.
                 unfold Print, events; cbn [snd stdout].
                 rewrite append_nil_r. repeat apply ends_with_nl_app.
                 apply ends_with_nl_nl.
           ++ rewrite stdout_app. apply ends_with_nl_app.
              unfold Print, events; cbn [snd stdout].
              rewrite append_nil_r. repeat apply ends_with_nl_app.
              apply ends_with_nl_nl.
      * unfold main. rewrite events_bind. cbv beta. rewrite Hg.
        rewrite stdout_app. unfold Print, ret, events; cbn [snd stdout].
        rewrite !append_nil_r. unfold banner.
        repeat apply ends_with_nl_app. apply ends_with_nl_nl.
Qed.
